(** * Filename sanitisation and converter invocation of the OCR export scripts

    A shallow embedding of the diagnostic scripts [tests/debug_filename.py],
    [tests/debug_app_flow.py] and [debug_pandoc.py]: the filename sanitiser in
    its old and new variants, the default name handed to the save dialog, and
    the argument vector of the document converter.

    A Python [str] is a sequence of Unicode code points; it is modelled as a
    list of code points, so that [len], slicing and iteration are the list
    operations. *)

From Stdlib Require Import ZArith QArith Lqa Ascii String.
From stdpp Require Import base decidable numbers option list strings gmap.

Abbreviation pystr := (list N).

(** ** The fragment of Python's [str] and [os.path] the scripts use *)
Module Py.

(** [ord] of an ASCII character. *)
Definition ord (a : ascii) : N := N_of_ascii a.

(** [chr(i)]: the one-character string of code point [i]. *)
Definition chr (i : nat) : N := N.of_nat i.

(** [range(n)]. *)
Definition range (n : nat) : list nat := seq 0 n.

(** A string literal holding ASCII characters only. *)
Definition lit (s : string) : pystr := ord <$> list_ascii_of_string s.

(** [s.replace(old, new)] for a one-character [old]: every occurrence of the
    character is replaced by [new], the other characters are kept. *)
Definition replace (old : N) (new : pystr) (s : pystr) : pystr :=
  s ≫= λ x, if decide (x = old) then new else [x].

(** [s.lstrip(chars)]: drop the longest prefix made of members of [chars]. *)
Fixpoint lstrip (chars : pystr) (s : pystr) : pystr :=
  match s with
  | [] => []
  | x :: s' => if decide (x ∈ chars) then lstrip chars s' else s
  end.

(** [s.rstrip(chars)]: drop the longest suffix made of members of [chars]. *)
Fixpoint rstrip (chars : pystr) (s : pystr) : pystr :=
  match s with
  | [] => []
  | x :: s' =>
      match rstrip chars s' with
      | [] => if decide (x ∈ chars) then [] else [x]
      | r => x :: r
      end
  end.

(** [s.strip(chars)]. *)
Definition strip (chars : pystr) (s : pystr) : pystr :=
  rstrip chars (lstrip chars s).

(** [s.rfind(c)] for a one-character [c]: the highest index of an
    occurrence, [-1] when there is none. *)
Fixpoint rfind (c : N) (s : pystr) : Z :=
  match s with
  | [] => -1
  | x :: s' =>
      let r := rfind c s' in
      if decide (0 ≤ r)%Z then (1 + r)%Z
      else if decide (x = c) then 0%Z else (-1)%Z
  end.

(** The two implementations of [os.path]: [posixpath] and [ntpath]. *)
Inductive flavour := Posix | Nt.

Definition sep (fl : flavour) : N :=
  match fl with Posix => ord "/" | Nt => ord "\" end.

Definition altsep (fl : flavour) : option N :=
  match fl with Posix => None | Nt => Some (ord "/") end.

Definition extsep : N := ord ".".

(** The [while filenameIndex < dotIndex] loop of [genericpath._splitext];
    [n] is [dotIndex - filenameIndex], the number of iterations left. *)
Fixpoint splitext_scan (n : nat) (p : pystr) (dotIndex filenameIndex : nat)
  : pystr * pystr :=
  match n with
  | O => (p, take 0 p)
  | S n' =>
      if decide (take 1 (drop filenameIndex p) ≠ [extsep])
      then (take dotIndex p, drop dotIndex p)
      else splitext_scan n' p dotIndex (S filenameIndex)
  end.

(** [os.path.splitext(p)], as [genericpath._splitext(p, sep, altsep, extsep)]. *)
Definition splitext (fl : flavour) (p : pystr) : pystr * pystr :=
  let sepIndex := rfind (sep fl) p in
  let sepIndex :=
    match altsep fl with
    | Some a => Z.max sepIndex (rfind a p)
    | None => sepIndex
    end in
  let dotIndex := rfind extsep p in
  if decide (sepIndex < dotIndex)%Z then
    let filenameIndex := (sepIndex + 1)%Z in
    splitext_scan (Z.to_nat (dotIndex - filenameIndex)) p
      (Z.to_nat dotIndex) (Z.to_nat filenameIndex)
  else (p, take 0 p).

End Py.

(** ** The fragment of Python's [re] the scripts use *)
Module Re.

Section Unicode.

(** The Unicode character database is not part of the repository: whether a
    code point beyond ASCII is alphanumeric is left open. *)
Variable unicode_isalnum : N → bool.

(** [str.isalnum] of one code point. *)
Definition isalnum (c : N) : bool :=
  if decide (c < 128)%N then
    bool_decide (48 ≤ c ≤ 57)%N || bool_decide (65 ≤ c ≤ 90)%N
    || bool_decide (97 ≤ c ≤ 122)%N
  else unicode_isalnum c.

(** The class [\w] of a [str] pattern: alphanumeric or underscore. *)
Definition word (c : N) : bool := isalnum c || bool_decide (c = Py.ord "_").

End Unicode.

(** [re.sub(pattern, repl, s)] for a pattern that is one character class:
    each character the class matches is replaced by [repl]. *)
Definition sub (matches : N → bool) (repl : pystr) (s : pystr) : pystr :=
  s ≫= λ c, if matches c then repl else [c].

End Re.

(** ** [tests/debug_filename.py] *)
Module DebugFilename.

(** The character class [[^\w.\-]]. *)
Definition not_word_dot_hyphen (unicode_isalnum : N → bool) (c : N) : bool :=
  negb (Re.word unicode_isalnum c
        || bool_decide (c = Py.ord ".") || bool_decide (c = Py.ord "-")).

Definition old_sanitize_filename (unicode_isalnum : N → bool)
    (filename : pystr) : pystr :=
  Re.sub (not_word_dot_hyphen unicode_isalnum) [] filename.

Definition forbidden_chars : pystr :=
  Py.lit "<>:" ++ [34%N] ++ Py.lit "|?*\/".

Definition control_chars : pystr := Py.chr <$> Py.range 32.

Definition new_sanitize_filename (filename : pystr) : pystr :=
  let sane_name :=
    foldl (λ sane_name char, Py.replace char [] sane_name) filename
      (forbidden_chars ++ control_chars) in
  let sane_name := Py.strip (Py.lit " .") sane_name in
  if decide (sane_name = []) then Py.lit "scanned_document"
  else
    let sane_name :=
      if decide (200 < length sane_name) then take 200 sane_name
      else sane_name in
    sane_name.

End DebugFilename.

(** ** [tests/debug_app_flow.py] *)
Module DebugAppFlow.

Definition forbidden_chars : pystr :=
  Py.lit "<>:" ++ [34%N] ++ Py.lit "|?*\/".

Definition control_chars : pystr := Py.chr <$> Py.range 32.

Definition _sanitize_filename (filename : pystr) : pystr :=
  let sane_name :=
    foldl (λ sane_name char, Py.replace char [] sane_name) filename
      (forbidden_chars ++ control_chars) in
  let sane_name := Py.strip (Py.lit " .") sane_name in
  if decide (sane_name = []) then Py.lit "scanned_document"
  else
    let sane_name :=
      if decide (200 < length sane_name) then take 200 sane_name
      else sane_name in
    sane_name.

(** The fallback of [ocr_result.get('file_name', ...)]. *)
Definition unknown_file : pystr := [0x672A; 0x77E5; 0x6587; 0x4EF6]%N.

(** Step 3 of [simulate_app_flow]: from the OCR result to the name offered
    to the save dialog. *)
Definition default_filename (fl : Py.flavour) (ocr_result : gmap string pystr)
  : pystr :=
  let file_name := default unknown_file (ocr_result !! "file_name"%string) in
  let base_name := (Py.splitext fl file_name).1 in
  let sanitized_base_name := _sanitize_filename base_name in
  sanitized_base_name ++ Py.lit ".docx".

(** The OCR result the script simulates. *)
Definition ocr_result : gmap string pystr :=
  {[ "file_name"%string := unknown_file ++ Py.lit ".jpg" ]}.

(** The argument vector built in [simulate_pandoc_call]. *)
Definition pandoc_cmd (pandoc_exe input_file output_path : pystr)
  : list pystr :=
  [ pandoc_exe; input_file;
    Py.lit "-o"; output_path;
    Py.lit "--from"; Py.lit "gfm+pipe_tables+hard_line_breaks";
    Py.lit "--to"; Py.lit "docx";
    Py.lit "--wrap=none" ].

End DebugAppFlow.

(** ** [debug_pandoc.py] *)
Module DebugPandoc.

(** The argument vector built in [test_pandoc_encoding]. *)
Definition pandoc_cmd (pandoc_exe input_file output_path : pystr)
  : list pystr :=
  [ pandoc_exe; input_file;
    Py.lit "-o"; output_path;
    Py.lit "--from"; Py.lit "markdown";
    Py.lit "--to"; Py.lit "docx" ].

End DebugPandoc.

(** ** [tools/performance_test.py] *)
Module PerformanceTest.

(** The four verdicts [main] can print. *)
Inductive verdict := Excellent | Good | Average | Poor.

(** The [if]/[elif] chain at the end of [main]. [total_time] is a
    difference of two clock readings, a finite float; every finite float is
    a rational and its comparison with [1.0], [2.0] and [3.0] is exact. *)
Definition assess (total_time : Q) : verdict :=
  if Qlt_le_dec total_time 1 then Excellent
  else if Qlt_le_dec total_time 2 then Good
  else if Qlt_le_dec total_time 3 then Average
  else Poor.

(** The verdicts from best to worst. *)
Definition rank (v : verdict) : nat :=
  match v with Excellent => 0 | Good => 1 | Average => 2 | Poor => 3 end.

End PerformanceTest.

(** ** The vocabulary of the properties *)
Module Spec.

(** The characters [<], [>], [:], the double quote (code point 34), [|],
    [?], [*], the backslash and [/]. *)
Definition forbidden (c : N) : Prop :=
  c ∈ [Py.ord "<"; Py.ord ">"; Py.ord ":"; 34%N; Py.ord "|"; Py.ord "?";
       Py.ord "*"; Py.ord "\"; Py.ord "/"].

(** The code points 0 through 31. *)
Definition control (c : N) : Prop := (c ≤ 31)%N.

Definition space_or_dot (c : N) : Prop := c = Py.ord " " ∨ c = Py.ord ".".

(** Neither forbidden nor a control character. *)
Definition allowed (c : N) : Prop := ¬ forbidden c ∧ ¬ control c.

#[global] Instance forbidden_dec c : Decision (forbidden c).
Proof. unfold forbidden. apply _. Defined.

#[global] Instance control_dec c : Decision (control c).
Proof. unfold control. apply _. Defined.

#[global] Instance space_or_dot_dec c : Decision (space_or_dot c).
Proof. unfold space_or_dot. apply _. Defined.

#[global] Instance allowed_dec c : Decision (allowed c).
Proof. unfold allowed. apply _. Defined.

(** The string starts, respectively ends, with a character satisfying [P]. *)
Definition starts_with (P : N → Prop) (s : pystr) : Prop :=
  match head s with Some c => P c | None => False end.

Definition ends_with (P : N → Prop) (s : pystr) : Prop :=
  match last s with Some c => P c | None => False end.

#[global] Instance starts_with_dec P `{!∀ c, Decision (P c)} s :
  Decision (starts_with P s).
Proof. unfold starts_with. destruct (head s); apply _. Defined.

#[global] Instance ends_with_dec P `{!∀ c, Decision (P c)} s :
  Decision (ends_with P s).
Proof. unfold ends_with. destruct (last s); apply _. Defined.

(** Drop the longest prefix of characters satisfying [P]. *)
Fixpoint drop_while (P : N → Prop) `{!∀ c, Decision (P c)} (s : pystr)
  : pystr :=
  match s with
  | [] => []
  | c :: s' => if decide (P c) then drop_while P s' else s
  end.

(** Strip leading and trailing spaces and dots. *)
Definition strip_spaces_dots (s : pystr) : pystr :=
  reverse (drop_while space_or_dot (reverse (drop_while space_or_dot s))).

(** The reference definition of the sanitiser: delete, strip, fall back
    when empty, otherwise truncate. *)
Definition sanitize_reference (filename : pystr) : pystr :=
  let deleted := filter allowed filename in
  let stripped := strip_spaces_dots deleted in
  if decide (stripped = []) then Py.lit "scanned_document"
  else take 200 stripped.

(** A Unicode word character (letter, digit, underscore) or a hyphen. *)
Definition word_or_hyphen (unicode_isalnum : N → bool) (c : N) : Prop :=
  Re.word unicode_isalnum c = true ∨ c = Py.ord "-".

#[global] Instance word_or_hyphen_dec u c : Decision (word_or_hyphen u c).
Proof. unfold word_or_hyphen. apply _. Defined.

(** A directory separator of the given [os.path] flavour. *)
Definition separator (fl : Py.flavour) (c : N) : Prop :=
  c = Py.sep fl ∨ Py.altsep fl = Some c.

#[global] Instance separator_dec fl c : Decision (separator fl c).
Proof. unfold separator. apply _. Defined.

(** A character the old sanitiser keeps: a word character, a dot or a
    hyphen. *)
Definition old_kept (unicode_isalnum : N → bool) (c : N) : Prop :=
  Re.word unicode_isalnum c = true ∨ c = Py.ord "." ∨ c = Py.ord "-".

#[global] Instance old_kept_dec u c : Decision (old_kept u c).
Proof. unfold old_kept. apply _. Defined.

(** A character that survives both the deletion and the stripping of the
    new sanitiser wherever it stands. *)
Definition solid (c : N) : Prop := allowed c ∧ ¬ space_or_dot c.

#[global] Instance solid_dec c : Decision (solid c).
Proof. unfold solid. apply _. Defined.

(** The shape of a converter call: executable, Markdown input, the output
    right after [-o], and [docx] right after [--to]. *)
Definition converter_invocation (pandoc_exe input_file output_path : pystr)
    (cmd : list pystr) : Prop :=
  cmd !! 0 = Some pandoc_exe ∧
  cmd !! 1 = Some input_file ∧
  (∃ i, cmd !! i = Some (Py.lit "-o") ∧ cmd !! S i = Some output_path) ∧
  (∃ j, cmd !! j = Some (Py.lit "--to") ∧ cmd !! S j = Some (Py.lit "docx")).

End Spec.

(** ** Concrete inputs *)
Module Inputs.

(** An instance of the open part of the character database: the block of
    CJK unified ideographs, U+4E00 to U+9FFF, whose members are letters. *)
Definition cjk_isalnum (c : N) : bool := bool_decide (0x4E00 ≤ c ≤ 0x9FFF)%N.

(** A name of 201 characters whose 200th character is a space. *)
Definition long_name : pystr := replicate 199 (Py.ord "a") ++ Py.lit " b".

(** A name made of characters that are all removed or stripped. *)
Definition blank_name : pystr := Py.lit " .<>. ".

(** A CJK name with ASCII word characters and a hyphen. *)
Definition cjk_name : pystr := DebugAppFlow.unknown_file ++ Py.lit "-scan_01".

(** A name padded with spaces and dots, holding forbidden characters. *)
Definition padded_name : pystr := Py.lit " ..my<re>port. . ".

(** A tidy base name with an inner dot and a space. *)
Definition tidy_base : pystr :=
  DebugAppFlow.unknown_file ++ Py.lit " v1.2".

End Inputs.

(** Evaluate the [ord] of character literals in the goal and hypotheses. *)
Ltac eval_ord :=
  repeat match goal with
  | |- context [Py.ord ?a] =>
      let v := eval vm_compute in (Py.ord a) in change (Py.ord a) with v
  | H : context [Py.ord ?a] |- _ =>
      let v := eval vm_compute in (Py.ord a) in change (Py.ord a) with v in H
  end.

(** ** The scripts on concrete names *)

Example new_sanitize_ex1 :
  DebugFilename.new_sanitize_filename (Py.lit " .a<b>..") = Py.lit "ab".
Proof. vm_compute. reflexivity. Qed.

Example splitext_ex1 :
  Py.splitext Py.Nt (Py.lit "C:\dir.d\..name.tar.gz")
  = (Py.lit "C:\dir.d\..name.tar", Py.lit ".gz").
Proof. vm_compute. reflexivity. Qed.

Example splitext_ex2 :
  Py.splitext Py.Posix (Py.lit "/a.b/...rc") = (Py.lit "/a.b/...rc", []).
Proof. vm_compute. reflexivity. Qed.

Example default_filename_ex :
  DebugAppFlow.default_filename Py.Nt DebugAppFlow.ocr_result
  = DebugAppFlow.unknown_file ++ Py.lit ".docx".
Proof. vm_compute. reflexivity. Qed.

Example new_sanitize_long_name :
  DebugFilename.new_sanitize_filename Inputs.long_name
  = replicate 199 (Py.ord "a") ++ Py.lit " ".
Proof. vm_compute. reflexivity. Qed.

Example new_sanitize_long_name_twice :
  DebugFilename.new_sanitize_filename
    (DebugFilename.new_sanitize_filename Inputs.long_name)
  = replicate 199 (Py.ord "a").
Proof. vm_compute. reflexivity. Qed.

Example old_sanitize_ex1 :
  DebugFilename.old_sanitize_filename Inputs.cjk_isalnum
    (DebugAppFlow.unknown_file ++ Py.lit "<>:tests")
  = DebugAppFlow.unknown_file ++ Py.lit "tests".
Proof. vm_compute. reflexivity. Qed.

Example sanitize_reference_ex1 :
  Spec.sanitize_reference (Py.lit " .a<b>..") = Py.lit "ab".
Proof. vm_compute. reflexivity. Qed.

(** ** One-character replacement and stripping *)
Section StrLemmas.

Implicit Types (s : pystr) (chars : pystr) (c : N).

Lemma replace_empty c s : Py.replace c [] s = filter (λ x, x ≠ c) s.
Proof.
  unfold Py.replace. induction s as [|x s IH]; [done|].
  rewrite bind_cons, filter_cons, IH.
  destruct (decide (x = c)) as [->|Hne].
  - by rewrite decide_False by (intros H; by apply H).
  - by rewrite decide_True.
Qed.

(** Removing the characters of [chars] one after the other keeps exactly
    the characters that are not in [chars]. *)
Lemma foldl_replace_empty chars s :
  foldl (λ sane_name char, Py.replace char [] sane_name) s chars
  = filter (λ x, x ∉ chars) s.
Proof.
  revert s. induction chars as [|c chars IH]; intros s; simpl.
  - induction s as [|x s IHs]; [done|].
    rewrite filter_cons_True by apply not_elem_of_nil. by rewrite <- IHs.
  - rewrite IH, replace_empty, list_filter_filter.
    apply list_filter_iff. intros x. rewrite not_elem_of_cons. tauto.
Qed.

Lemma lstrip_suffix chars s : Py.lstrip chars s `suffix_of` s.
Proof.
  induction s as [|x s IH]; simpl; [done|].
  case_decide; [by apply suffix_cons_r | done].
Qed.

Lemma rstrip_prefix chars s : Py.rstrip chars s `prefix_of` s.
Proof.
  induction s as [|x s IH]; simpl; [done|].
  destruct (Py.rstrip chars s) as [|y r] eqn:E.
  - case_decide; [apply prefix_nil | apply prefix_cons, prefix_nil].
  - by apply prefix_cons.
Qed.

Lemma lstrip_starts chars s :
  ¬ Spec.starts_with (λ x, x ∈ chars) (Py.lstrip chars s).
Proof.
  induction s as [|x s IH]; simpl; [by intros []|].
  by case_decide.
Qed.

Lemma rstrip_ends chars s :
  ¬ Spec.ends_with (λ x, x ∈ chars) (Py.rstrip chars s).
Proof.
  unfold Spec.ends_with.
  induction s as [|x s IH]; simpl; [by intros []|].
  destruct (Py.rstrip chars s) as [|y r] eqn:E.
  - by case_decide.
  - by rewrite last_cons_cons.
Qed.

(** Stripping on the right leaves the first character in place. *)
Lemma rstrip_head chars s :
  Py.rstrip chars s ≠ [] → head (Py.rstrip chars s) = head s.
Proof.
  destruct s as [|x s]; simpl; [done|].
  destruct (Py.rstrip chars s); [|done].
  by case_decide.
Qed.

Lemma lstrip_id chars s :
  ¬ Spec.starts_with (λ x, x ∈ chars) s → Py.lstrip chars s = s.
Proof.
  destruct s as [|x s]; simpl; [done|].
  intros H. by rewrite decide_False.
Qed.

Lemma rstrip_id chars s :
  ¬ Spec.ends_with (λ x, x ∈ chars) s → Py.rstrip chars s = s.
Proof.
  unfold Spec.ends_with.
  induction s as [|x s IH]; simpl; [done|].
  destruct s as [|y s].
  - simpl. intros H. by rewrite decide_False.
  - rewrite last_cons_cons. intros H. by rewrite (IH H).
Qed.

Lemma strip_id chars s :
  ¬ Spec.starts_with (λ x, x ∈ chars) s →
  ¬ Spec.ends_with (λ x, x ∈ chars) s →
  Py.strip chars s = s.
Proof.
  intros Hs He. unfold Py.strip. rewrite (lstrip_id _ _ Hs).
  by apply rstrip_id.
Qed.

Lemma strip_length chars s : length (Py.strip chars s) ≤ length s.
Proof.
  unfold Py.strip.
  etrans; [apply prefix_length, rstrip_prefix|].
  apply suffix_length, lstrip_suffix.
Qed.

Lemma strip_Forall (P : N → Prop) chars s :
  Forall P s → Forall P (Py.strip chars s).
Proof.
  unfold Py.strip. intros H.
  destruct (lstrip_suffix chars s) as [k1 E1].
  destruct (rstrip_prefix chars (Py.lstrip chars s)) as [k2 E2].
  rewrite E1, E2 in H.
  by apply Forall_app in H as [_ [H _]%Forall_app].
Qed.

Lemma strip_starts chars s :
  ¬ Spec.starts_with (λ x, x ∈ chars) (Py.strip chars s).
Proof.
  unfold Py.strip, Spec.starts_with.
  destruct (decide (Py.rstrip chars (Py.lstrip chars s) = [])) as [->|Hne];
    [by intros []|].
  rewrite (rstrip_head _ _ Hne). apply lstrip_starts.
Qed.

Lemma strip_ends chars s :
  ¬ Spec.ends_with (λ x, x ∈ chars) (Py.strip chars s).
Proof. apply rstrip_ends. Qed.

Lemma lstrip_snoc chars s c :
  Py.lstrip chars (s ++ [c])
  = match Py.lstrip chars s with
    | [] => if decide (c ∈ chars) then [] else [c]
    | r => r ++ [c]
    end.
Proof.
  induction s as [|x s IH]; simpl.
  - by case_decide.
  - destruct (decide (x ∈ chars)); [apply IH | done].
Qed.

(** Stripping on the right is stripping the reversed string on the left. *)
Lemma rstrip_reverse chars s :
  Py.rstrip chars s = reverse (Py.lstrip chars (reverse s)).
Proof.
  induction s as [|x s IH]; simpl; [done|].
  rewrite reverse_cons, lstrip_snoc, IH.
  destruct (Py.lstrip chars (reverse s)) as [|y r].
  - rewrite reverse_nil. by case_decide.
  - rewrite reverse_app, reverse_singleton. simpl.
    destruct (reverse (y :: r)) as [|z r'] eqn:E; [|done].
    apply (f_equal length) in E. rewrite length_reverse in E. done.
Qed.

Lemma elem_of_space_dot c : c ∈ Py.lit " ." ↔ Spec.space_or_dot c.
Proof.
  unfold Spec.space_or_dot.
  change (Py.lit " .") with [Py.ord " "; Py.ord "."].
  rewrite !elem_of_cons, elem_of_nil. tauto.
Qed.

Lemma lstrip_drop_while s :
  Py.lstrip (Py.lit " .") s = Spec.drop_while Spec.space_or_dot s.
Proof.
  induction s as [|x s IH]; simpl; [done|].
  destruct (decide (x ∈ Py.lit " .")) as [H|H];
    destruct (decide (Spec.space_or_dot x)) as [H'|H']; try done;
    rewrite elem_of_space_dot in H; done.
Qed.

Lemma strip_spaces_dots_eq s :
  Py.strip (Py.lit " .") s = Spec.strip_spaces_dots s.
Proof.
  unfold Py.strip, Spec.strip_spaces_dots.
  by rewrite rstrip_reverse, !lstrip_drop_while.
Qed.

End StrLemmas.

(** ** The sanitiser *)
Section Sanitizer.

Implicit Types (s : pystr) (c : N).

Lemma sanitize_same s :
  DebugAppFlow._sanitize_filename s = DebugFilename.new_sanitize_filename s.
Proof. reflexivity. Qed.

Lemma elem_of_control_chars c :
  c ∈ DebugFilename.control_chars ↔ Spec.control c.
Proof.
  unfold DebugFilename.control_chars, Py.range, Py.chr, Spec.control.
  rewrite list_elem_of_fmap. split.
  - intros (n & -> & Hn%elem_of_seq). lia.
  - intros Hc. exists (N.to_nat c). split; [lia|].
    apply elem_of_seq. lia.
Qed.

Lemma elem_of_forbidden_chars c :
  c ∈ DebugFilename.forbidden_chars ↔ Spec.forbidden c.
Proof. reflexivity. Qed.

Lemma removed_chars_allowed c :
  c ∉ DebugFilename.forbidden_chars ++ DebugFilename.control_chars
  ↔ Spec.allowed c.
Proof.
  unfold Spec.allowed.
  by rewrite not_elem_of_app, elem_of_forbidden_chars, elem_of_control_chars.
Qed.

(** The sanitiser as one pass: filter, strip, fall back or truncate. *)
Lemma sanitize_unfold s :
  DebugFilename.new_sanitize_filename s
  = let t := Py.strip (Py.lit " .") (filter Spec.allowed s) in
    if decide (t = []) then Py.lit "scanned_document" else take 200 t.
Proof.
  unfold DebugFilename.new_sanitize_filename. cbv zeta.
  rewrite foldl_replace_empty.
  rewrite (list_filter_iff _ Spec.allowed) by apply removed_chars_allowed.
  case_decide; [done|].
  case_decide; [done|]. rewrite take_ge; [done|lia].
Qed.

End Sanitizer.

(** ** Facts shared by the properties of the sanitiser *)
Section SanitizerFacts.

Implicit Types (s : pystr) (c : N) (P Q : N → Prop).

Lemma starts_with_iff P Q s :
  (∀ c, P c ↔ Q c) → Spec.starts_with P s ↔ Spec.starts_with Q s.
Proof. unfold Spec.starts_with. intros H. by destruct (head s). Qed.

Lemma ends_with_iff P Q s :
  (∀ c, P c ↔ Q c) → Spec.ends_with P s ↔ Spec.ends_with Q s.
Proof. unfold Spec.ends_with. intros H. by destruct (last s). Qed.

Lemma starts_with_Forall P Q s :
  Forall P s → Spec.starts_with Q s → ∃ c, P c ∧ Q c.
Proof.
  unfold Spec.starts_with. destruct s as [|x s]; simpl; [done|].
  intros [Hx _]%Forall_cons HQ. eauto.
Qed.

Lemma ends_with_Forall P Q s :
  Forall P s → Spec.ends_with Q s → ∃ c, P c ∧ Q c.
Proof.
  unfold Spec.ends_with. destruct (last s) as [x|] eqn:E; [|done].
  intros HP HQ. exists x. split; [|done].
  apply last_Some_elem_of in E. by eapply Forall_forall in HP.
Qed.

Lemma filter_all P `{!∀ c, Decision (P c)} s : Forall P s → filter P s = s.
Proof.
  induction 1 as [|x s Hx _ IH]; [done|].
  by rewrite filter_cons_True, IH.
Qed.

Lemma filter_Forall P `{!∀ c, Decision (P c)} s : Forall P (filter P s).
Proof. apply Forall_forall. by intros x [Hx _]%list_elem_of_filter. Qed.

Lemma head_take_pos n s : 0 < n → head (take n s) = head s.
Proof. destruct n; [lia|]. by destruct s. Qed.

Lemma fallback_allowed : Forall Spec.allowed (Py.lit "scanned_document").
Proof. apply (bool_decide_unpack _). by vm_compute. Qed.

Lemma fallback_tidy :
  ¬ Spec.starts_with Spec.space_or_dot (Py.lit "scanned_document")
  ∧ ¬ Spec.ends_with Spec.space_or_dot (Py.lit "scanned_document").
Proof. apply (bool_decide_unpack _). by vm_compute. Qed.

Lemma sanitize_allowed s :
  Forall Spec.allowed (DebugFilename.new_sanitize_filename s).
Proof.
  rewrite sanitize_unfold. cbv zeta. case_decide.
  - apply fallback_allowed.
  - apply Forall_take, strip_Forall, filter_Forall.
Qed.

Lemma sanitize_length s :
  length (DebugFilename.new_sanitize_filename s) ≤ 200.
Proof.
  rewrite sanitize_unfold. cbv zeta. case_decide.
  - apply (bool_decide_unpack _). by vm_compute.
  - rewrite length_take. apply Nat.le_min_l.
Qed.

Lemma sanitize_nonempty s : DebugFilename.new_sanitize_filename s ≠ [].
Proof.
  rewrite sanitize_unfold. cbv zeta. case_decide as Ht; [done|].
  by destruct (Py.strip _ _).
Qed.

Lemma sanitize_starts s :
  ¬ Spec.starts_with Spec.space_or_dot (DebugFilename.new_sanitize_filename s).
Proof.
  rewrite sanitize_unfold. cbv zeta. case_decide.
  - apply fallback_tidy.
  - intros Hs.
    apply (strip_starts (Py.lit " .") (filter Spec.allowed s)).
    apply (starts_with_iff _ _ _ elem_of_space_dot).
    revert Hs. unfold Spec.starts_with. by rewrite head_take_pos by lia.
Qed.

(** Without truncation the result does not end in a space or a dot. *)
Lemma sanitize_ends s :
  length (Py.strip (Py.lit " .") (filter Spec.allowed s)) ≤ 200 →
  ¬ Spec.ends_with Spec.space_or_dot (DebugFilename.new_sanitize_filename s).
Proof.
  intros Hlen. rewrite sanitize_unfold. cbv zeta. case_decide.
  - apply fallback_tidy.
  - rewrite take_ge by done.
    rewrite <- (ends_with_iff _ _ _ elem_of_space_dot).
    apply strip_ends.
Qed.

(** A tidy name is a fixed point of the sanitiser. *)
Lemma sanitize_id s :
  s ≠ [] → length s ≤ 200 → Forall Spec.allowed s →
  ¬ Spec.starts_with Spec.space_or_dot s →
  ¬ Spec.ends_with Spec.space_or_dot s →
  DebugFilename.new_sanitize_filename s = s.
Proof.
  intros Hne Hlen Hall Hs He.
  rewrite sanitize_unfold. cbv zeta.
  rewrite (filter_all _ _ Hall), strip_id.
  - rewrite decide_False by done. by apply take_ge.
  - by rewrite (starts_with_iff _ _ _ elem_of_space_dot).
  - by rewrite (ends_with_iff _ _ _ elem_of_space_dot).
Qed.

(** Sanitising twice changes nothing exactly when the first result does
    not end in a space or a dot. *)
Lemma sanitize_twice s :
  DebugFilename.new_sanitize_filename (DebugFilename.new_sanitize_filename s)
  = DebugFilename.new_sanitize_filename s
  ↔ ¬ Spec.ends_with Spec.space_or_dot (DebugFilename.new_sanitize_filename s).
Proof.
  split.
  - intros <-. apply sanitize_ends.
    etrans; [apply strip_length|].
    etrans; [apply length_filter|]. apply sanitize_length.
  - intros He. apply sanitize_id; auto using sanitize_nonempty,
      sanitize_length, sanitize_allowed, sanitize_starts.
Qed.

End SanitizerFacts.

(** ** The old sanitiser on word characters *)
Section OldSanitizer.

Variable unicode_isalnum : N → bool.

Implicit Types (s : pystr) (c : N).

Lemma word_or_hyphen_range c :
  Spec.word_or_hyphen unicode_isalnum c →
  (48 ≤ c ≤ 57 ∨ 65 ≤ c ≤ 90 ∨ 97 ≤ c ≤ 122 ∨ c = 95 ∨ c = 45 ∨ 128 ≤ c)%N.
Proof.
  unfold Spec.word_or_hyphen, Re.word, Re.isalnum. intros [H | ->].
  - apply orb_true_iff in H as [H | H%bool_decide_eq_true].
    + case_decide; [|lia].
      repeat (apply orb_true_iff in H as [H | H]);
        apply bool_decide_eq_true in H; lia.
    + eval_ord. lia.
  - eval_ord. lia.
Qed.

Lemma word_or_hyphen_allowed c :
  Spec.word_or_hyphen unicode_isalnum c → Spec.allowed c.
Proof.
  intros H%word_or_hyphen_range.
  unfold Spec.allowed, Spec.forbidden, Spec.control. eval_ord.
  rewrite !elem_of_cons, elem_of_nil. lia.
Qed.

Lemma word_or_hyphen_not_space_dot c :
  Spec.word_or_hyphen unicode_isalnum c → ¬ Spec.space_or_dot c.
Proof.
  intros H%word_or_hyphen_range. unfold Spec.space_or_dot. eval_ord. lia.
Qed.

Lemma old_sanitize_id s :
  Forall (Spec.word_or_hyphen unicode_isalnum) s →
  DebugFilename.old_sanitize_filename unicode_isalnum s = s.
Proof.
  unfold DebugFilename.old_sanitize_filename, Re.sub.
  induction 1 as [|x s Hx _ IH]; [done|].
  rewrite bind_cons, IH.
  assert (DebugFilename.not_word_dot_hyphen unicode_isalnum x = false) as ->;
    [|done].
  unfold DebugFilename.not_word_dot_hyphen.
  apply negb_false_iff. rewrite !orb_true_iff.
  destruct Hx as [Hx | ->]; [by left; left|].
  right. by apply bool_decide_eq_true.
Qed.

Lemma new_sanitize_word_id s :
  s ≠ [] → length s ≤ 200 →
  Forall (Spec.word_or_hyphen unicode_isalnum) s →
  DebugFilename.new_sanitize_filename s = s.
Proof.
  intros Hne Hlen Hall. apply sanitize_id; [done|done|..].
  - eapply Forall_impl; [done|]. apply word_or_hyphen_allowed.
  - intros (c & Hc & Hsd)%(starts_with_Forall _ _ _ Hall).
    by apply (word_or_hyphen_not_space_dot c).
  - intros (c & Hc & Hsd)%(ends_with_Forall _ _ _ Hall).
    by apply (word_or_hyphen_not_space_dot c).
Qed.

End OldSanitizer.

(** ** The properties of the scripts *)

(** C1: for every input string, the result of the filename sanitiser, in
    both scripts, holds none of the forbidden characters and no control
    character (code points 0 through 31). *)
Theorem sanitized_name_only_allowed_chars (s : pystr) :
  Forall (λ c, ¬ Spec.forbidden c ∧ ¬ Spec.control c)
    (DebugFilename.new_sanitize_filename s)
  ∧ Forall (λ c, ¬ Spec.forbidden c ∧ ¬ Spec.control c)
      (DebugAppFlow._sanitize_filename s).
Proof. split; [|rewrite sanitize_same]; apply sanitize_allowed. Qed.

(** C2: for every input string, the result of the filename sanitiser has
    at most 200 characters. *)
Theorem sanitized_name_at_most_200 (s : pystr) :
  length (DebugFilename.new_sanitize_filename s) ≤ 200
  ∧ length (DebugAppFlow._sanitize_filename s) ≤ 200.
Proof. split; [|rewrite sanitize_same]; apply sanitize_length. Qed.

(** C4: the default filename handed to the save dialog is the sanitised
    base name (the first component of [os.path.splitext]) of the OCR
    result's file name followed by [.docx]; so it ends in [.docx]. *)
Theorem default_filename_ends_in_docx (fl : Py.flavour)
    (ocr_result : gmap string pystr) (file_name : pystr) :
  ocr_result !! "file_name"%string = Some file_name →
  DebugAppFlow.default_filename fl ocr_result
  = DebugAppFlow._sanitize_filename (Py.splitext fl file_name).1
    ++ Py.lit ".docx"
  ∧ Py.lit ".docx" `suffix_of` DebugAppFlow.default_filename fl ocr_result.
Proof.
  intros Hname. unfold DebugAppFlow.default_filename. rewrite Hname.
  split; [done|]. by eexists.
Qed.

Lemma default_filename_ends_in_docx_witness :
  DebugAppFlow.default_filename Py.Nt DebugAppFlow.ocr_result
  = DebugAppFlow._sanitize_filename
      (Py.splitext Py.Nt (DebugAppFlow.unknown_file ++ Py.lit ".jpg")).1
    ++ Py.lit ".docx"
  ∧ Py.lit ".docx"
    `suffix_of` DebugAppFlow.default_filename Py.Nt DebugAppFlow.ocr_result.
Proof.
  apply (default_filename_ends_in_docx Py.Nt DebugAppFlow.ocr_result
           (DebugAppFlow.unknown_file ++ Py.lit ".jpg")).
  vm_compute. reflexivity.
Defined.

(** C5: in both scripts the converter command is a list whose first element
    is the pandoc executable, whose second element is the Markdown input
    file, which holds the output path right after [-o] and [docx] right
    after [--to]. *)
Theorem pandoc_cmd_is_converter_invocation
    (pandoc_exe input_file output_path : pystr) :
  Spec.converter_invocation pandoc_exe input_file output_path
    (DebugPandoc.pandoc_cmd pandoc_exe input_file output_path)
  ∧ Spec.converter_invocation pandoc_exe input_file output_path
      (DebugAppFlow.pandoc_cmd pandoc_exe input_file output_path).
Proof.
  split; (split; [done|]; split; [done|]; split; [by exists 2 | by exists 6]).
Qed.

(** C6: a non-empty string of at most 200 characters, none of them
    forbidden or a control character, that neither starts nor ends with a
    space or a dot, is returned unchanged by the sanitiser. *)
Theorem sanitizer_keeps_tidy_names (s : pystr) :
  s ≠ [] →
  length s ≤ 200 →
  Forall (λ c, ¬ Spec.forbidden c ∧ ¬ Spec.control c) s →
  ¬ Spec.starts_with Spec.space_or_dot s →
  ¬ Spec.ends_with Spec.space_or_dot s →
  DebugFilename.new_sanitize_filename s = s
  ∧ DebugAppFlow._sanitize_filename s = s.
Proof.
  intros. split; [|rewrite sanitize_same]; by apply sanitize_id.
Qed.

Lemma sanitizer_keeps_tidy_names_witness :
  DebugFilename.new_sanitize_filename DebugAppFlow.unknown_file
  = DebugAppFlow.unknown_file
  ∧ DebugAppFlow._sanitize_filename DebugAppFlow.unknown_file
    = DebugAppFlow.unknown_file.
Proof.
  apply (sanitizer_keeps_tidy_names DebugAppFlow.unknown_file).
  - discriminate.
  - vm_compute. lia.
  - apply (bool_decide_unpack _). vm_compute. exact I.
  - apply (bool_decide_unpack _). vm_compute. exact I.
  - apply (bool_decide_unpack _). vm_compute. exact I.
Defined.

(** C7: the sanitiser equals the reference definition: delete the forbidden
    and control characters, strip leading and trailing spaces and dots,
    return [scanned_document] when nothing is left, otherwise keep the
    first 200 characters. *)
Theorem sanitizer_refines_reference (s : pystr) :
  DebugFilename.new_sanitize_filename s = Spec.sanitize_reference s
  ∧ DebugAppFlow._sanitize_filename s = Spec.sanitize_reference s.
Proof.
  assert (DebugFilename.new_sanitize_filename s = Spec.sanitize_reference s).
  { rewrite sanitize_unfold. unfold Spec.sanitize_reference.
    by rewrite strip_spaces_dots_eq. }
  split; [|rewrite sanitize_same]; done.
Qed.

(** C8: for every input string the result of the sanitiser is non-empty;
    when deleting the forbidden and control characters and stripping
    leading and trailing spaces and dots leaves nothing, the result is the
    fallback name [scanned_document]. *)
Theorem sanitized_name_nonempty (s : pystr) :
  DebugFilename.new_sanitize_filename s ≠ []
  ∧ DebugAppFlow._sanitize_filename s ≠ []
  ∧ (Spec.strip_spaces_dots (filter Spec.allowed s) = [] →
     DebugFilename.new_sanitize_filename s = Py.lit "scanned_document"
     ∧ DebugAppFlow._sanitize_filename s = Py.lit "scanned_document").
Proof.
  split; [apply sanitize_nonempty|].
  split; [rewrite sanitize_same; apply sanitize_nonempty|].
  intros Hempty.
  assert (DebugFilename.new_sanitize_filename s = Py.lit "scanned_document").
  { rewrite sanitize_unfold, strip_spaces_dots_eq. cbv zeta.
    by rewrite decide_True. }
  split; [|rewrite sanitize_same]; done.
Qed.

Lemma sanitized_name_nonempty_witness :
  DebugFilename.new_sanitize_filename Inputs.blank_name ≠ []
  ∧ DebugFilename.new_sanitize_filename Inputs.blank_name
    = Py.lit "scanned_document".
Proof.
  destruct (sanitized_name_nonempty Inputs.blank_name) as (Hne & _ & Hfb).
  split; [exact Hne|].
  apply Hfb. vm_compute. reflexivity.
Defined.

(** C9, as stated: the sanitiser is not idempotent. A name of 201
    characters whose 200th character is a space is cut right after the
    space, and sanitising the result strips that space. *)
Lemma sanitizer_not_idempotent :
  DebugFilename.new_sanitize_filename
    (DebugFilename.new_sanitize_filename Inputs.long_name)
  ≠ DebugFilename.new_sanitize_filename Inputs.long_name
  ∧ DebugAppFlow._sanitize_filename
      (DebugAppFlow._sanitize_filename Inputs.long_name)
    ≠ DebugAppFlow._sanitize_filename Inputs.long_name.
Proof.
  split; intros H; apply (f_equal length) in H; vm_compute in H;
    discriminate H.
Qed.

(** C9, amended: sanitising the result of the sanitiser returns it
    unchanged exactly when that result does not end with a space or a
    dot. *)
Theorem sanitizer_idempotent_iff_tidy_end (s : pystr) :
  (DebugFilename.new_sanitize_filename (DebugFilename.new_sanitize_filename s)
   = DebugFilename.new_sanitize_filename s
   ↔ ¬ Spec.ends_with Spec.space_or_dot
         (DebugFilename.new_sanitize_filename s))
  ∧ (DebugAppFlow._sanitize_filename (DebugAppFlow._sanitize_filename s)
     = DebugAppFlow._sanitize_filename s
     ↔ ¬ Spec.ends_with Spec.space_or_dot
           (DebugAppFlow._sanitize_filename s)).
Proof.
  split; [apply sanitize_twice|].
  rewrite !sanitize_same. apply sanitize_twice.
Qed.

Lemma sanitizer_idempotent_iff_tidy_end_witness :
  DebugFilename.new_sanitize_filename
    (DebugFilename.new_sanitize_filename Inputs.cjk_name)
  = DebugFilename.new_sanitize_filename Inputs.cjk_name.
Proof.
  apply (proj1 (sanitizer_idempotent_iff_tidy_end Inputs.cjk_name)).
  apply (bool_decide_unpack _). vm_compute. exact I.
Defined.

(** C10: on a non-empty string of at most 200 characters made of Unicode
    word characters and hyphens only, the old and the new sanitiser both
    return the input unchanged, so their results are equal. *)
Theorem old_new_agree_on_word_names (unicode_isalnum : N → bool)
    (s : pystr) :
  s ≠ [] →
  length s ≤ 200 →
  Forall (Spec.word_or_hyphen unicode_isalnum) s →
  DebugFilename.old_sanitize_filename unicode_isalnum s = s
  ∧ DebugFilename.new_sanitize_filename s = s
  ∧ DebugFilename.old_sanitize_filename unicode_isalnum s
    = DebugFilename.new_sanitize_filename s.
Proof.
  intros Hne Hlen Hall.
  pose proof (old_sanitize_id _ _ Hall) as Hold.
  pose proof (new_sanitize_word_id _ _ Hne Hlen Hall) as Hnew.
  by rewrite Hold, Hnew.
Qed.

Lemma old_new_agree_on_word_names_witness :
  DebugFilename.old_sanitize_filename Inputs.cjk_isalnum Inputs.cjk_name
  = Inputs.cjk_name
  ∧ DebugFilename.new_sanitize_filename Inputs.cjk_name = Inputs.cjk_name
  ∧ DebugFilename.old_sanitize_filename Inputs.cjk_isalnum Inputs.cjk_name
    = DebugFilename.new_sanitize_filename Inputs.cjk_name.
Proof.
  apply (old_new_agree_on_word_names Inputs.cjk_isalnum Inputs.cjk_name).
  - discriminate.
  - vm_compute. lia.
  - apply (bool_decide_unpack _). vm_compute. exact I.
Defined.

(** ** More on stripping *)
Section StripFacts.

Implicit Types (s p : pystr) (chars : pystr) (c : N).

Lemma lstrip_nil_iff chars s :
  Py.lstrip chars s = [] ↔ Forall (λ x, x ∈ chars) s.
Proof.
  induction s as [|x s IH]; simpl; [done|].
  destruct (decide (x ∈ chars)) as [Hx|Hx].
  - rewrite IH. split; [by constructor|]. by intros [_ ?]%Forall_cons.
  - split; [done|]. by intros [? _]%Forall_cons.
Qed.

Lemma rstrip_nil_iff chars s :
  Py.rstrip chars s = [] ↔ Forall (λ x, x ∈ chars) s.
Proof.
  rewrite rstrip_reverse, <- (Forall_reverse _ s), <- lstrip_nil_iff.
  split; [|by intros ->].
  intros H. apply (f_equal reverse) in H.
  by rewrite reverse_involutive in H.
Qed.

Lemma strip_nil_iff chars s :
  Py.strip chars s = [] ↔ Forall (λ x, x ∈ chars) s.
Proof.
  unfold Py.strip. rewrite rstrip_nil_iff. split.
  - intros Hall. apply lstrip_nil_iff.
    destruct (Py.lstrip chars s) as [|x r] eqn:E; [done|].
    exfalso. apply (lstrip_starts chars s). rewrite E.
    by apply Forall_cons in Hall as [Hx _].
  - intros ->%lstrip_nil_iff. constructor.
Qed.

Lemma lstrip_pad chars p s :
  Forall (λ x, x ∈ chars) p → Py.lstrip chars (p ++ s) = Py.lstrip chars s.
Proof.
  induction 1 as [|x p Hx _ IH]; simpl; [done|]. by rewrite decide_True.
Qed.

Lemma rstrip_pad chars p s :
  Forall (λ x, x ∈ chars) p → Py.rstrip chars (s ++ p) = Py.rstrip chars s.
Proof.
  intros Hp. rewrite !rstrip_reverse, reverse_app, lstrip_pad; [done|].
  by apply Forall_reverse.
Qed.

Lemma lstrip_app chars s p :
  Py.lstrip chars s ≠ [] → Py.lstrip chars (s ++ p) = Py.lstrip chars s ++ p.
Proof.
  induction s as [|x s IH]; simpl; [done|].
  destruct (decide (x ∈ chars)); [apply IH | done].
Qed.

(** Spaces and dots around a name do not change what is left of it. *)
Lemma strip_pad chars p1 s p2 :
  Forall (λ x, x ∈ chars) p1 → Forall (λ x, x ∈ chars) p2 →
  Py.strip chars (p1 ++ s ++ p2) = Py.strip chars s.
Proof.
  intros H1 H2. unfold Py.strip. rewrite (lstrip_pad _ _ _ H1).
  destruct (decide (Py.lstrip chars s = [])) as [E|E].
  - rewrite E. apply lstrip_nil_iff in E.
    assert (Py.lstrip chars (s ++ p2) = []) as ->; [|done].
    apply lstrip_nil_iff, Forall_app. done.
  - by rewrite (lstrip_app _ _ _ E), rstrip_pad.
Qed.

Lemma head_lstrip chars s :
  head (Py.lstrip chars s) = head (filter (λ x, x ∉ chars) s).
Proof.
  induction s as [|x s IH]; simpl; [done|].
  rewrite filter_cons.
  destruct (decide (x ∈ chars)), (decide (x ∉ chars)); done.
Qed.

(** The first character left by stripping is the first one outside
    [chars]. *)
Lemma head_strip chars s :
  head (Py.strip chars s) = head (filter (λ x, x ∉ chars) s).
Proof.
  destruct (decide (Py.strip chars s = [])) as [E|E].
  - rewrite E. apply strip_nil_iff in E. symmetry. apply head_None.
    induction E as [|x s Hx _ IH]; [done|]. by rewrite filter_cons_False by auto.
  - unfold Py.strip in *. by rewrite rstrip_head, head_lstrip.
Qed.

Lemma strip_sublist chars s : Py.strip chars s `sublist_of` s.
Proof.
  unfold Py.strip.
  destruct (lstrip_suffix chars s) as [k1 E1].
  destruct (rstrip_prefix chars (Py.lstrip chars s)) as [k2 E2].
  rewrite E1 at 2. rewrite E2 at 2.
  by apply sublist_inserts_l, sublist_inserts_r.
Qed.

End StripFacts.

(** ** Further facts on the new sanitiser *)
Section SanitizerMore.

Implicit Types (s p : pystr) (c : N).

Lemma space_or_dot_allowed c : Spec.space_or_dot c → Spec.allowed c.
Proof.
  unfold Spec.space_or_dot, Spec.allowed, Spec.forbidden, Spec.control.
  eval_ord. rewrite !elem_of_cons, elem_of_nil. lia.
Qed.

Lemma pad_in_chars p :
  Forall Spec.space_or_dot p → Forall (λ x, x ∈ Py.lit " .") p.
Proof.
  intros H. eapply Forall_impl; [exact H|].
  intros c. by rewrite elem_of_space_dot.
Qed.

Lemma filter_solid s :
  filter (λ x, x ∉ Py.lit " .") (filter Spec.allowed s) = filter Spec.solid s.
Proof.
  rewrite list_filter_filter. apply list_filter_iff. intros c.
  unfold Spec.solid. rewrite elem_of_space_dot. tauto.
Qed.

Lemma sanitize_sublist s :
  DebugFilename.new_sanitize_filename s = Py.lit "scanned_document"
  ∨ DebugFilename.new_sanitize_filename s `sublist_of` s.
Proof.
  rewrite sanitize_unfold. cbv zeta. case_decide; [by left|right].
  etrans; [apply sublist_take|].
  etrans; [apply strip_sublist|]. apply sublist_filter.
Qed.

Lemma sanitize_skip s1 c s2 :
  ¬ Spec.allowed c →
  DebugFilename.new_sanitize_filename (s1 ++ c :: s2)
  = DebugFilename.new_sanitize_filename (s1 ++ s2).
Proof.
  intros Hc. rewrite !sanitize_unfold, !filter_app.
  by rewrite filter_cons_False.
Qed.

Lemma sanitize_pad p1 s p2 :
  Forall Spec.space_or_dot p1 → Forall Spec.space_or_dot p2 →
  DebugFilename.new_sanitize_filename (p1 ++ s ++ p2)
  = DebugFilename.new_sanitize_filename s.
Proof.
  intros H1 H2. rewrite !sanitize_unfold, !filter_app.
  rewrite (filter_all _ p1), (filter_all _ p2)
    by (eapply Forall_impl; [done | apply space_or_dot_allowed]).
  by rewrite strip_pad by by apply pad_in_chars.
Qed.

Lemma sanitize_head s :
  match head (filter Spec.solid s) with
  | Some c => head (DebugFilename.new_sanitize_filename s) = Some c
  | None => DebugFilename.new_sanitize_filename s = Py.lit "scanned_document"
  end.
Proof.
  rewrite sanitize_unfold. cbv zeta.
  pose proof (head_strip (Py.lit " .") (filter Spec.allowed s)) as Hh.
  rewrite filter_solid in Hh. rewrite <- Hh.
  case_decide as E.
  - by rewrite E.
  - rewrite head_take_pos by lia.
    destruct (Py.strip _ _) as [|x r]; done.
Qed.

End SanitizerMore.

(** ** Properties beyond the claims: the new sanitiser *)

(** X1: the result of the sanitiser never starts with a space or a dot,
    whatever the input and even after truncation. *)
Theorem sanitized_name_never_starts_with_space_or_dot (s : pystr) :
  ¬ Spec.starts_with Spec.space_or_dot (DebugFilename.new_sanitize_filename s)
  ∧ ¬ Spec.starts_with Spec.space_or_dot
        (DebugAppFlow._sanitize_filename s).
Proof. split; [|rewrite sanitize_same]; apply sanitize_starts. Qed.

(** X2: on an input of at most 200 characters the result does not end with
    a space or a dot either. *)
Theorem short_name_never_ends_with_space_or_dot (s : pystr) :
  length s ≤ 200 →
  ¬ Spec.ends_with Spec.space_or_dot (DebugFilename.new_sanitize_filename s)
  ∧ ¬ Spec.ends_with Spec.space_or_dot (DebugAppFlow._sanitize_filename s).
Proof.
  intros Hlen.
  assert (length (Py.strip (Py.lit " .") (filter Spec.allowed s)) ≤ 200).
  { etrans; [apply strip_length|]. etrans; [apply length_filter|]. done. }
  split; [|rewrite sanitize_same]; by apply sanitize_ends.
Qed.

Lemma short_name_never_ends_with_space_or_dot_witness :
  ¬ Spec.ends_with Spec.space_or_dot
      (DebugFilename.new_sanitize_filename Inputs.padded_name)
  ∧ ¬ Spec.ends_with Spec.space_or_dot
        (DebugAppFlow._sanitize_filename Inputs.padded_name).
Proof.
  apply (short_name_never_ends_with_space_or_dot Inputs.padded_name).
  vm_compute. lia.
Defined.

(** X3: the sanitiser only removes characters: its result is either the
    fallback name or a subsequence of the input, in the input's order. *)
Theorem sanitized_name_fallback_or_subsequence (s : pystr) :
  (DebugFilename.new_sanitize_filename s = Py.lit "scanned_document"
   ∨ DebugFilename.new_sanitize_filename s `sublist_of` s)
  ∧ (DebugAppFlow._sanitize_filename s = Py.lit "scanned_document"
     ∨ DebugAppFlow._sanitize_filename s `sublist_of` s).
Proof. split; [|rewrite sanitize_same]; apply sanitize_sublist. Qed.

(** X4: a forbidden or control character has no effect on the result,
    wherever it stands in the input. *)
Theorem sanitizer_ignores_removed_character (s1 : pystr) (c : N)
    (s2 : pystr) :
  Spec.forbidden c ∨ Spec.control c →
  DebugFilename.new_sanitize_filename (s1 ++ c :: s2)
  = DebugFilename.new_sanitize_filename (s1 ++ s2)
  ∧ DebugAppFlow._sanitize_filename (s1 ++ c :: s2)
    = DebugAppFlow._sanitize_filename (s1 ++ s2).
Proof.
  intros Hc.
  assert (¬ Spec.allowed c) by (unfold Spec.allowed; tauto).
  split; [|rewrite !sanitize_same]; by apply sanitize_skip.
Qed.

Lemma sanitizer_ignores_removed_character_witness :
  DebugFilename.new_sanitize_filename
    (DebugAppFlow.unknown_file ++ Py.ord "/" :: Py.lit "a")
  = DebugFilename.new_sanitize_filename
      (DebugAppFlow.unknown_file ++ Py.lit "a")
  ∧ DebugAppFlow._sanitize_filename
      (DebugAppFlow.unknown_file ++ Py.ord "/" :: Py.lit "a")
    = DebugAppFlow._sanitize_filename
        (DebugAppFlow.unknown_file ++ Py.lit "a").
Proof.
  apply (sanitizer_ignores_removed_character DebugAppFlow.unknown_file
           (Py.ord "/") (Py.lit "a")).
  left. apply (bool_decide_unpack _). vm_compute. exact I.
Defined.

(** X5: spaces and dots put before and after a name do not change the
    result. *)
Theorem sanitizer_ignores_padding (p1 s p2 : pystr) :
  Forall Spec.space_or_dot p1 →
  Forall Spec.space_or_dot p2 →
  DebugFilename.new_sanitize_filename (p1 ++ s ++ p2)
  = DebugFilename.new_sanitize_filename s
  ∧ DebugAppFlow._sanitize_filename (p1 ++ s ++ p2)
    = DebugAppFlow._sanitize_filename s.
Proof.
  intros H1 H2. split; [|rewrite !sanitize_same]; by apply sanitize_pad.
Qed.

Lemma sanitizer_ignores_padding_witness :
  DebugFilename.new_sanitize_filename
    (Py.lit " . " ++ Inputs.tidy_base ++ Py.lit "..")
  = DebugFilename.new_sanitize_filename Inputs.tidy_base
  ∧ DebugAppFlow._sanitize_filename
      (Py.lit " . " ++ Inputs.tidy_base ++ Py.lit "..")
    = DebugAppFlow._sanitize_filename Inputs.tidy_base.
Proof.
  apply (sanitizer_ignores_padding (Py.lit " . ") Inputs.tidy_base
           (Py.lit "..")).
  - apply (bool_decide_unpack _). vm_compute. exact I.
  - apply (bool_decide_unpack _). vm_compute. exact I.
Defined.

(** X6: the result starts with the first character of the input that is
    allowed and is neither a space nor a dot; when the input has no such
    character (the empty input included) the result is the fallback name. *)
Theorem sanitized_name_first_character (s : pystr) :
  match head (filter Spec.solid s) with
  | Some c =>
      head (DebugFilename.new_sanitize_filename s) = Some c
      ∧ head (DebugAppFlow._sanitize_filename s) = Some c
  | None =>
      DebugFilename.new_sanitize_filename s = Py.lit "scanned_document"
      ∧ DebugAppFlow._sanitize_filename s = Py.lit "scanned_document"
  end.
Proof.
  pose proof (sanitize_head s) as H.
  destruct (head (filter Spec.solid s));
    (split; [|rewrite sanitize_same]; exact H).
Qed.

(** ** Further facts on the old sanitiser *)
Section OldSanitizerMore.

Variable unicode_isalnum : N → bool.

Implicit Types (s : pystr) (c : N).

Lemma not_word_dot_hyphen_false c :
  DebugFilename.not_word_dot_hyphen unicode_isalnum c = false
  ↔ Spec.old_kept unicode_isalnum c.
Proof.
  unfold DebugFilename.not_word_dot_hyphen, Spec.old_kept.
  rewrite negb_false_iff, !orb_true_iff, !bool_decide_eq_true. tauto.
Qed.

(** The substitution by the empty string is a filter. *)
Lemma old_sanitize_filter s :
  DebugFilename.old_sanitize_filename unicode_isalnum s
  = filter (Spec.old_kept unicode_isalnum) s.
Proof.
  unfold DebugFilename.old_sanitize_filename, Re.sub.
  induction s as [|x s IH]; [done|].
  rewrite bind_cons, filter_cons, IH.
  destruct (decide (Spec.old_kept unicode_isalnum x)) as [Hx|Hx].
  - apply not_word_dot_hyphen_false in Hx. by rewrite Hx.
  - destruct (DebugFilename.not_word_dot_hyphen unicode_isalnum x) eqn:E;
      [done|]. by apply not_word_dot_hyphen_false in E.
Qed.

Lemma old_kept_allowed c :
  Spec.old_kept unicode_isalnum c → Spec.allowed c ∧ c ≠ Py.ord " ".
Proof.
  intros [H | [-> | ->]].
  - split; [apply (word_or_hyphen_allowed unicode_isalnum); by left|].
    intros ->.
    apply (word_or_hyphen_not_space_dot unicode_isalnum (Py.ord " "));
      [by left | by left].
  - split; [apply space_or_dot_allowed; by right | done].
  - split; [apply (word_or_hyphen_allowed unicode_isalnum); by right|done].
Qed.

Lemma filter_id_iff (P : N → Prop) `{!∀ c, Decision (P c)} s :
  filter P s = s ↔ Forall P s.
Proof.
  split; [|apply filter_all].
  intros <-. apply filter_Forall.
Qed.

Lemma filter_nil_iff (P : N → Prop) `{!∀ c, Decision (P c)} s :
  filter P s = [] ↔ Forall (λ c, ¬ P c) s.
Proof.
  induction s as [|x s IH]; [done|].
  rewrite filter_cons. destruct (decide (P x)) as [Hx|Hx].
  - split; [done|]. by intros [? _]%Forall_cons.
  - rewrite IH. split; [by constructor|]. by intros [_ ?]%Forall_cons.
Qed.

End OldSanitizerMore.

(** ** Properties beyond the claims: the old sanitiser *)

(** X7: the old sanitiser only removes characters, and what it returns
    holds word characters, dots and hyphens only: no forbidden character,
    no control character and no space. *)
Theorem old_sanitized_name_contents (unicode_isalnum : N → bool)
    (s : pystr) :
  DebugFilename.old_sanitize_filename unicode_isalnum s `sublist_of` s
  ∧ Forall (λ c, Spec.old_kept unicode_isalnum c
                 ∧ ¬ Spec.forbidden c ∧ ¬ Spec.control c
                 ∧ c ≠ Py.ord " ")
      (DebugFilename.old_sanitize_filename unicode_isalnum s).
Proof.
  rewrite old_sanitize_filter. split; [apply sublist_filter|].
  eapply Forall_impl; [apply filter_Forall|].
  intros c Hc. destruct (old_kept_allowed _ _ Hc) as [[? ?] ?]. auto.
Qed.

(** X8: the old sanitiser is idempotent. *)
Theorem old_sanitizer_idempotent (unicode_isalnum : N → bool) (s : pystr) :
  DebugFilename.old_sanitize_filename unicode_isalnum
    (DebugFilename.old_sanitize_filename unicode_isalnum s)
  = DebugFilename.old_sanitize_filename unicode_isalnum s.
Proof.
  rewrite !old_sanitize_filter. apply filter_all, filter_Forall.
Qed.

(** X9: the old sanitiser has no fallback name: it returns the empty
    string exactly when no character of the input is a word character, a
    dot or a hyphen. *)
Theorem old_sanitizer_empty_result (unicode_isalnum : N → bool)
    (s : pystr) :
  DebugFilename.old_sanitize_filename unicode_isalnum s = []
  ↔ Forall (λ c, ¬ Spec.old_kept unicode_isalnum c) s.
Proof. rewrite old_sanitize_filter. apply filter_nil_iff. Qed.

Lemma old_sanitizer_empty_result_witness :
  DebugFilename.old_sanitize_filename Inputs.cjk_isalnum (Py.lit "<> /")
  = [].
Proof.
  apply (proj2 (old_sanitizer_empty_result Inputs.cjk_isalnum
                  (Py.lit "<> /"))).
  apply (bool_decide_unpack _). vm_compute. exact I.
Defined.

(** X10: on a non-empty name of at most 200 allowed characters that neither
    starts nor ends with a space or a dot, the old and the new sanitiser
    return the same string exactly when every character is a word
    character, a dot or a hyphen. *)
Theorem old_new_agree_iff (unicode_isalnum : N → bool) (s : pystr) :
  s ≠ [] →
  length s ≤ 200 →
  Forall Spec.allowed s →
  ¬ Spec.starts_with Spec.space_or_dot s →
  ¬ Spec.ends_with Spec.space_or_dot s →
  DebugFilename.old_sanitize_filename unicode_isalnum s
  = DebugFilename.new_sanitize_filename s
  ↔ Forall (Spec.old_kept unicode_isalnum) s.
Proof.
  intros Hne Hlen Hall Hs He.
  rewrite (sanitize_id s) by done.
  rewrite old_sanitize_filter. apply filter_id_iff.
Qed.

Lemma old_new_agree_iff_witness :
  DebugFilename.old_sanitize_filename Inputs.cjk_isalnum Inputs.tidy_base
  ≠ DebugFilename.new_sanitize_filename Inputs.tidy_base.
Proof.
  intros Heq.
  apply (old_new_agree_iff Inputs.cjk_isalnum Inputs.tidy_base) in Heq.
  - revert Heq. apply (bool_decide_unpack _). vm_compute. exact I.
  - discriminate.
  - vm_compute. lia.
  - apply (bool_decide_unpack _). vm_compute. exact I.
  - apply (bool_decide_unpack _). vm_compute. exact I.
  - apply (bool_decide_unpack _). vm_compute. exact I.
Defined.

(** ** Searching from the right and splitting off the extension *)
Section Splitext.

Implicit Types (s p a b : pystr) (c : N) (fl : Py.flavour).

Lemma rfind_notin c s : c ∉ s → Py.rfind c s = (-1)%Z.
Proof.
  induction s as [|x s IH]; simpl; [done|].
  intros [Hx Hs]%not_elem_of_cons. rewrite (IH Hs).
  rewrite decide_False by lia. by rewrite decide_False by done.
Qed.

(** [rfind] returns the index of the last occurrence. *)
Lemma rfind_last c a b :
  c ∉ b → Py.rfind c (a ++ c :: b) = Z.of_nat (length a).
Proof.
  intros Hb. induction a as [|x a IH]; simpl.
  - rewrite (rfind_notin _ _ Hb). rewrite decide_False by lia.
    by rewrite decide_True.
  - rewrite IH. rewrite decide_True by lia. lia.
Qed.

Lemma rfind_max c s i :
  s !! i = Some c → (Z.of_nat i ≤ Py.rfind c s)%Z.
Proof.
  revert i. induction s as [|x s IH]; intros [|i] Hi; simpl in *; try done.
  - injection Hi as ->. case_decide; [lia|]. rewrite decide_True by done. lia.
  - apply IH in Hi. rewrite decide_True by lia. lia.
Qed.

Lemma rfind_spec c s :
  ((c ∉ s) ∧ Py.rfind c s = (-1)%Z)
  ∨ (∃ a b, s = a ++ c :: b ∧ (c ∉ b)
            ∧ Py.rfind c s = Z.of_nat (length a)).
Proof.
  destruct (decide (c ∈ s)) as [Hin|Hnot].
  - right. apply list_elem_of_split_r in Hin as (a & b & -> & Hb).
    exists a, b. by rewrite rfind_last.
  - left. by rewrite rfind_notin.
Qed.

(** The index below which no separator of the flavour occurs afterwards. *)
Lemma sep_index_max fl p i c :
  Spec.separator fl c → p !! i = Some c →
  (Z.of_nat i ≤ match Py.altsep fl with
                | Some a => Z.max (Py.rfind (Py.sep fl) p) (Py.rfind a p)
                | None => Py.rfind (Py.sep fl) p
                end)%Z.
Proof.
  intros [-> | Ha] Hi.
  - apply rfind_max in Hi. destruct (Py.altsep fl); lia.
  - rewrite Ha. apply rfind_max in Hi. lia.
Qed.

Lemma splitext_scan_cases n p d f :
  Py.splitext_scan n p d f = (p, [])
  ∨ Py.splitext_scan n p d f = (take d p, drop d p).
Proof.
  revert f. induction n as [|n IH]; intros f; simpl; [by left|].
  case_decide; [by right | apply IH].
Qed.

Lemma splitext_cases fl p :
  Py.splitext fl p = (p, [])
  ∨ (∃ a b, p = a ++ Py.extsep :: b
            ∧ (Py.extsep ∉ b)
            ∧ Forall (λ c, ¬ Spec.separator fl c) b
            ∧ Py.splitext fl p = (a, Py.extsep :: b)).
Proof.
  unfold Py.splitext. cbv zeta.
  case_decide as Hlt; [|by left].
  destruct (splitext_scan_cases
    (Z.to_nat (Py.rfind Py.extsep p
       - (match Py.altsep fl with
          | Some a => Z.max (Py.rfind (Py.sep fl) p) (Py.rfind a p)
          | None => Py.rfind (Py.sep fl) p
          end + 1)))
    p (Z.to_nat (Py.rfind Py.extsep p))
    (Z.to_nat (match Py.altsep fl with
               | Some a => Z.max (Py.rfind (Py.sep fl) p) (Py.rfind a p)
               | None => Py.rfind (Py.sep fl) p
               end + 1))) as [E|E]; rewrite E; [by left|right].
  destruct (rfind_spec Py.extsep p) as [[_ Hr]|(a & b & Hp & Hb & Hr)].
  { exfalso. rewrite Hr in Hlt. clear E.
    assert (-1 ≤ Py.rfind (Py.sep fl) p)%Z.
    { destruct (rfind_spec (Py.sep fl) p) as [[_ ->]|(? & ? & _ & _ & ->)];
        lia. }
    destruct (Py.altsep fl); lia. }
  exists a, b. rewrite Hr, Nat2Z.id. split; [done|]. split; [done|].
  split.
  - apply Forall_forall. intros c [j Hj]%list_elem_of_lookup Hc.
    assert (p !! (length a + S j) = Some c) as Hi.
    { rewrite Hp, lookup_app_r by lia.
      replace (length a + S j - length a) with (S j) by lia. done. }
    apply (sep_index_max fl _ _ _ Hc) in Hi. rewrite Hr in Hlt. lia.
  - subst p. by rewrite take_app_length, drop_app_length.
Qed.

End Splitext.

(** ** The default file name *)
Section DefaultFilename.

Implicit Types (s p base ext : pystr) (c : N) (fl : Py.flavour).

Lemma sep_index_none fl p :
  Forall (λ c, ¬ Spec.separator fl c) p →
  match Py.altsep fl with
  | Some a => Z.max (Py.rfind (Py.sep fl) p) (Py.rfind a p)
  | None => Py.rfind (Py.sep fl) p
  end = (-1)%Z.
Proof.
  intros Hp.
  assert (∀ c, Spec.separator fl c → Py.rfind c p = (-1)%Z) as Hnone.
  { intros c Hc. apply rfind_notin. intros Hin.
    by eapply Forall_forall in Hp. }
  rewrite (Hnone (Py.sep fl)) by by left.
  destruct (Py.altsep fl) as [a|] eqn:Ha; [|done].
  rewrite (Hnone a); [done|]. by right.
Qed.

Lemma separator_forbidden fl c : Spec.separator fl c → Spec.forbidden c.
Proof.
  unfold Spec.separator, Spec.forbidden.
  destruct fl; simpl; intros [-> | H]; try done;
    try (injection H as <-); eval_ord;
    rewrite !elem_of_cons; tauto.
Qed.

Lemma extsep_not_separator fl : ¬ Spec.separator fl Py.extsep.
Proof. destruct fl; apply (bool_decide_unpack _); by vm_compute. Qed.

Lemma allowed_not_separator fl s :
  Forall Spec.allowed s → Forall (λ c, ¬ Spec.separator fl c) s.
Proof.
  intros H. eapply Forall_impl; [exact H|].
  intros c [Hf _] Hs. by apply Hf, (separator_forbidden fl).
Qed.

(** A name with a proper last extension is split right before its last
    dot. *)
Lemma splitext_ext fl base ext :
  ¬ Spec.starts_with (λ c, c = Py.extsep) base → base ≠ [] →
  Forall (λ c, ¬ Spec.separator fl c) base →
  Forall (λ c, c ≠ Py.extsep ∧ ¬ Spec.separator fl c) ext →
  Py.splitext fl (base ++ Py.extsep :: ext) = (base, Py.extsep :: ext).
Proof.
  intros Hhead Hne Hbase Hext.
  assert (Py.extsep ∉ ext) as Hdot.
  { intros Hin. eapply Forall_forall in Hext; [|exact Hin]. by destruct Hext. }
  assert (Forall (λ c, ¬ Spec.separator fl c) (base ++ Py.extsep :: ext))
    as Hp.
  { apply Forall_app. split; [done|]. constructor.
    - apply extsep_not_separator.
    - eapply Forall_impl; [exact Hext|]. by intros c [_ ?]. }
  unfold Py.splitext. cbv zeta.
  rewrite (sep_index_none _ _ Hp), (rfind_last _ _ _ Hdot).
  rewrite decide_True by lia.
  destruct base as [|x base]; [done|].
  replace (Z.to_nat (Z.of_nat (length (x :: base)) - (-1 + 1)))
    with (S (length base)) by (simpl; lia).
  rewrite Nat2Z.id. change (Z.to_nat (-1 + 1)) with 0.
  simpl Py.splitext_scan.
  rewrite decide_True.
  - change (x :: base ++ Py.extsep :: ext)
      with ((x :: base) ++ Py.extsep :: ext).
    f_equal.
    + apply (take_app_length (x :: base)).
    + apply (drop_app_length (x :: base)).
  - intros [= ->]. by apply Hhead.
Qed.

(** A name made of a dot and a dotless rest has no extension. *)
Lemma splitext_dotfile fl b :
  Forall (λ c, c ≠ Py.extsep ∧ ¬ Spec.separator fl c) b →
  Py.splitext fl (Py.extsep :: b) = (Py.extsep :: b, []).
Proof.
  intros Hb.
  assert (Py.extsep ∉ b) as Hdot.
  { intros Hin. eapply Forall_forall in Hb; [|exact Hin]. by destruct Hb. }
  assert (Forall (λ c, ¬ Spec.separator fl c) (Py.extsep :: b)) as Hp.
  { constructor; [apply extsep_not_separator|].
    eapply Forall_impl; [exact Hb|]. by intros c [_ ?]. }
  assert (Py.rfind Py.extsep (Py.extsep :: b) = 0%Z) as Hr
    by apply (rfind_last _ [] _ Hdot).
  unfold Py.splitext. cbv zeta.
  rewrite (sep_index_none _ _ Hp), Hr.
  by rewrite decide_True by lia.
Qed.

Lemma default_filename_unfold fl (ocr_result : gmap string pystr) :
  DebugAppFlow.default_filename fl ocr_result
  = DebugFilename.new_sanitize_filename
      (Py.splitext fl
         (default DebugAppFlow.unknown_file
            (ocr_result !! "file_name"%string))).1
    ++ Py.lit ".docx".
Proof. reflexivity. Qed.

End DefaultFilename.

(** ** Properties beyond the claims: base name and default file name *)

(** X11: in [simulate_app_flow] the base name is a prefix of the file name:
    [os.path.splitext] cuts the name in two without losing a character, and
    the part cut off is empty or a dot followed by characters that are
    neither dots nor directory separators. *)
Theorem splitext_cuts_off_last_extension (fl : Py.flavour) (p : pystr) :
  (Py.splitext fl p).1 ++ (Py.splitext fl p).2 = p
  ∧ ((Py.splitext fl p).2 = []
     ∨ ∃ b, (Py.splitext fl p).2 = Py.extsep :: b
            ∧ Forall (λ c, c ≠ Py.extsep ∧ ¬ Spec.separator fl c) b).
Proof.
  destruct (splitext_cases fl p) as [E | (a & b & Hp & Hdot & Hsep & E)];
    rewrite E; simpl.
  - split; [apply app_nil_r | by left].
  - split; [done|]. right. exists b. split; [done|].
    apply Forall_forall. intros c Hc. split.
    + by intros ->.
    + by eapply Forall_forall in Hsep.
Qed.

(** X12: the default file name is a bare file name: it holds no forbidden
    or control character, hence no directory separator of either flavour,
    and has between 6 and 205 characters. *)
Theorem default_filename_is_bare_name (fl : Py.flavour)
    (ocr_result : gmap string pystr) :
  Forall (λ c, Spec.allowed c ∧ ¬ Spec.separator fl c)
    (DebugAppFlow.default_filename fl ocr_result)
  ∧ 6 ≤ length (DebugAppFlow.default_filename fl ocr_result) ≤ 205.
Proof.
  rewrite default_filename_unfold.
  set (base := (Py.splitext fl _).1).
  split.
  - assert (Forall Spec.allowed
              (DebugFilename.new_sanitize_filename base ++ Py.lit ".docx"))
      as Hall.
    { apply Forall_app. split; [apply sanitize_allowed|].
      apply (bool_decide_unpack _). by vm_compute. }
    apply Forall_forall. intros c Hc. split.
    + by eapply Forall_forall in Hall.
    + pose proof (allowed_not_separator fl _ Hall) as Hsep.
      by eapply Forall_forall in Hsep.
  - rewrite length_app.
    pose proof (sanitize_length base).
    pose proof (sanitize_nonempty base) as Hne.
    destruct (DebugFilename.new_sanitize_filename base); [done|].
    change (length (Py.lit ".docx")) with 5. cbn [length] in *. lia.
Qed.

(** X13: for a file name made of a tidy base name (non-empty, at most 200
    allowed characters, no space or dot at either end), a dot and an
    extension without dots and separators, the default file name is the
    base name followed by [.docx]. *)
Theorem default_filename_replaces_extension (fl : Py.flavour)
    (ocr_result : gmap string pystr) (base ext : pystr) :
  ocr_result !! "file_name"%string = Some (base ++ Py.extsep :: ext) →
  base ≠ [] →
  length base ≤ 200 →
  Forall Spec.allowed base →
  ¬ Spec.starts_with Spec.space_or_dot base →
  ¬ Spec.ends_with Spec.space_or_dot base →
  Forall (λ c, c ≠ Py.extsep ∧ ¬ Spec.separator fl c) ext →
  DebugAppFlow.default_filename fl ocr_result = base ++ Py.lit ".docx".
Proof.
  intros Hname Hne Hlen Hall Hs He Hext.
  rewrite default_filename_unfold, Hname. simpl default.
  rewrite splitext_ext; [|..|done].
  - cbn [fst]. by rewrite sanitize_id.
  - intros H. apply Hs. revert H. unfold Spec.starts_with.
    destruct (head base); [|done]. intros ->. by right.
  - done.
  - by apply allowed_not_separator.
Qed.

Lemma default_filename_replaces_extension_witness :
  DebugAppFlow.default_filename Py.Nt
    {[ "file_name"%string := Inputs.tidy_base ++ Py.extsep :: Py.lit "png" ]}
  = Inputs.tidy_base ++ Py.lit ".docx".
Proof.
  apply (default_filename_replaces_extension Py.Nt _ Inputs.tidy_base
           (Py.lit "png")).
  - vm_compute. reflexivity.
  - discriminate.
  - vm_compute. lia.
  - apply (bool_decide_unpack _). vm_compute. exact I.
  - apply (bool_decide_unpack _). vm_compute. exact I.
  - apply (bool_decide_unpack _). vm_compute. exact I.
  - apply (bool_decide_unpack _). vm_compute. exact I.
Defined.

(** X14: a file name that is only a dot and a tidy dotless rest, such as
    [.jpg], has no extension for [os.path.splitext]; the sanitiser strips
    the dot, and the default file name is the rest followed by [.docx]. *)
Theorem default_filename_of_dotfile (fl : Py.flavour)
    (ocr_result : gmap string pystr) (b : pystr) :
  ocr_result !! "file_name"%string = Some (Py.extsep :: b) →
  b ≠ [] →
  length b ≤ 200 →
  Forall (λ c, Spec.allowed c ∧ c ≠ Py.extsep) b →
  ¬ Spec.starts_with Spec.space_or_dot b →
  ¬ Spec.ends_with Spec.space_or_dot b →
  DebugAppFlow.default_filename fl ocr_result = b ++ Py.lit ".docx".
Proof.
  intros Hname Hne Hlen Hb Hs He.
  assert (Forall Spec.allowed b) as Hall.
  { eapply Forall_impl; [exact Hb|]. by intros c [? _]. }
  rewrite default_filename_unfold, Hname. simpl default.
  rewrite splitext_dotfile.
  - cbn [fst]. f_equal.
    rewrite <- (sanitize_id b) at 2 by done.
    rewrite <- (sanitize_pad [Py.extsep] b []).
    + by rewrite app_nil_r.
    + constructor; [by right | constructor].
    + constructor.
  - pose proof (allowed_not_separator fl _ Hall) as Hsep.
    apply Forall_forall. intros c Hc. split.
    + eapply Forall_forall in Hb; [|exact Hc]. by destruct Hb.
    + by eapply Forall_forall in Hsep.
Qed.

Lemma default_filename_of_dotfile_witness :
  DebugAppFlow.default_filename Py.Posix
    {[ "file_name"%string := Py.extsep :: Py.lit "jpg" ]}
  = Py.lit "jpg.docx".
Proof.
  apply (default_filename_of_dotfile Py.Posix _ (Py.lit "jpg")).
  - vm_compute. reflexivity.
  - discriminate.
  - vm_compute. lia.
  - apply (bool_decide_unpack _). vm_compute. exact I.
  - apply (bool_decide_unpack _). vm_compute. exact I.
  - apply (bool_decide_unpack _). vm_compute. exact I.
Defined.

(** X15: when the OCR result has no [file_name] entry, the default file
    name is the fallback of the lookup followed by [.docx]. *)
Theorem default_filename_without_file_name (fl : Py.flavour)
    (ocr_result : gmap string pystr) :
  ocr_result !! "file_name"%string = None →
  DebugAppFlow.default_filename fl ocr_result
  = DebugAppFlow.unknown_file ++ Py.lit ".docx".
Proof.
  intros Hname. rewrite default_filename_unfold, Hname. simpl default.
  destruct fl; vm_compute; reflexivity.
Qed.

Lemma default_filename_without_file_name_witness :
  DebugAppFlow.default_filename Py.Nt
    {[ "extracted_text"%string := Py.lit "# title" ]}
  = DebugAppFlow.unknown_file ++ Py.lit ".docx".
Proof.
  apply (default_filename_without_file_name Py.Nt).
  vm_compute. reflexivity.
Defined.

(** ** Properties beyond the claims: the verdict of the performance test *)

(** X16: the verdict is monotone in the measured time: a run that took no
    longer never gets a worse verdict. *)
Theorem assess_monotone (t1 t2 : Q) :
  (t1 <= t2)%Q →
  PerformanceTest.rank (PerformanceTest.assess t1)
  ≤ PerformanceTest.rank (PerformanceTest.assess t2).
Proof.
  intros Hle. unfold PerformanceTest.assess.
  repeat destruct (Qlt_le_dec _ _); simpl; try lia; exfalso; lra.
Qed.

Lemma assess_monotone_witness :
  PerformanceTest.rank (PerformanceTest.assess (3 # 2))
  ≤ PerformanceTest.rank (PerformanceTest.assess (5 # 2)).
Proof.
  apply (assess_monotone (3 # 2) (5 # 2)).
  vm_compute. discriminate.
Defined.
